(** * Net salary calculator: progressive bracket deductions and the pipeline

    A shallow embedding of [salary_calculator.py].

    Numbers.  Python mixes [int] and [float] values here.  The development
    works in exact arithmetic: amounts, rates and tax points are rationals
    ([Q], compared with [==]), and a decimal literal such as [0.004] stands
    for the rational [4 # 1000].  [TaxBracket.max_taxable_income] is annotated
    [int] in the source and is an integer ([Z]) here, injected into [Q]
    where the code mixes it with the salary.  Binary rounding of floats and
    the [:.2f] presentation format are outside the model.

    Errors.  Exact rationals cannot fail, but Python's mixed arithmetic
    can: an [int] that meets a [float] is converted first, and the
    conversion raises [OverflowError] beyond the range of a float.  Module
    [Py] repeats the code with that distinction and that error, and is
    related to the exact functions where it returns. *)

From Stdlib Require Import ZArith QArith Qminmax List String Lia Lqa Bool.
Import ListNotations.

Local Open Scope Q_scope.

(** ** Data model *)

(** [class TaxBracket]: a tier's ceiling and its rate. *)
Record TaxBracket : Type := mkTaxBracket {
  max_taxable_income : Z;
  tax_rate : Q
}.

(** [class TaxBracketsDeductionCalculator]: the dataclass only stores the
    list it is given; there is no [__post_init__]. *)
Record TaxBracketsDeductionCalculator : Type := mkTaxBracketsDeductionCalculator {
  tax_brackets : list TaxBracket
}.

(** [sys.maxsize] on a 64-bit CPython: [2^63 - 1]. *)
Definition sys_maxsize : Z := 9223372036854775807.

(** ** The bracket loop *)

Module TaxBrackets.

(** The body of the [for] loop of [TaxBracketsDeductionCalculator.calculate],
    with the two loop-carried variables as arguments.  [break] leaves the
    loop with the [deduction] accumulated so far. *)
Fixpoint loop (brackets : list TaxBracket) (deduction : Q)
         (last_max_taxable_income : Z) (gross_salary : Q) : Q :=
  match brackets with
  | [] => deduction
  | tax_bracket :: rest =>
      if Qle_bool (inject_Z last_max_taxable_income) gross_salary then
        let bracket_taxable_income :=
          Qmin gross_salary (inject_Z (max_taxable_income tax_bracket))
          - inject_Z last_max_taxable_income in
        let bracket_tax_deduction :=
          bracket_taxable_income * tax_rate tax_bracket in
        loop rest (deduction + bracket_tax_deduction)
             (max_taxable_income tax_bracket) gross_salary
      else deduction
  end.

(** [TaxBracketsDeductionCalculator.calculate]. *)
Definition calculate (self : TaxBracketsDeductionCalculator)
           (gross_salary : Q) : Q :=
  loop (tax_brackets self) 0 0%Z gross_salary.

End TaxBrackets.

(** ** The deduction rules *)

(** [IncomeTaxCalculator.TAX_POINT_VALUE]. *)
Definition TAX_POINT_VALUE : Q := 223.

(** Default value of [IncomeTaxCalculator.tax_brackets_deduction_calculator]. *)
Definition IncomeTax_default : TaxBracketsDeductionCalculator :=
  mkTaxBracketsDeductionCalculator
    [ mkTaxBracket 6450 0.1;
      mkTaxBracket 9240 0.14;
      mkTaxBracket 14840 0.2;
      mkTaxBracket 20620 0.31;
      mkTaxBracket 42910 0.35;
      mkTaxBracket 55270 0.47;
      mkTaxBracket sys_maxsize 0.5 ].

(** Default value of [NationalInsuranceCalculator.tax_brackets_deduction_calculator]. *)
Definition NationalInsurance_default : TaxBracketsDeductionCalculator :=
  mkTaxBracketsDeductionCalculator
    [ mkTaxBracket 6331 0.004;
      mkTaxBracket 44020 0.07 ].

(** Default value of [HealthInsuranceCalculator.tax_brackets_deduction_calculator]. *)
Definition HealthInsurance_default : TaxBracketsDeductionCalculator :=
  mkTaxBracketsDeductionCalculator
    [ mkTaxBracket 6331 0.031;
      mkTaxBracket 44020 0.05 ].

(** The concrete subclasses of [DeductionCalculator] that carry a name, each
    with its dataclass fields. *)
Inductive DeductionCalculator : Type :=
| IncomeTaxCalculator (tax_points : Q)
    (tax_brackets_deduction_calculator : TaxBracketsDeductionCalculator)
| NationalInsuranceCalculator
    (tax_brackets_deduction_calculator : TaxBracketsDeductionCalculator)
| HealthInsuranceCalculator
    (tax_brackets_deduction_calculator : TaxBracketsDeductionCalculator)
| MandatoryPensionSavingsCalculator.

(** Dynamic dispatch of [calculate]. *)
Definition calculate (self : DeductionCalculator) (gross_salary : Q) : Q :=
  match self with
  | IncomeTaxCalculator tax_points c =>
      TaxBrackets.calculate c gross_salary - TAX_POINT_VALUE * tax_points
  | NationalInsuranceCalculator c => TaxBrackets.calculate c gross_salary
  | HealthInsuranceCalculator c => TaxBrackets.calculate c gross_salary
  | MandatoryPensionSavingsCalculator => gross_salary * 0.06
  end.

(** [__repr__] of each rule. *)
Definition repr (self : DeductionCalculator) : string :=
  match self with
  | IncomeTaxCalculator _ _ => "Income tax"
  | NationalInsuranceCalculator _ => "National insurance"
  | HealthInsuranceCalculator _ => "Health insurance"
  | MandatoryPensionSavingsCalculator => "Mandatory pension savings"
  end.

(** ** The pipeline, with its diagnostic trace *)

(** One [logging.debug] record: the rule's name and the amount it returned
    (the source prints the amount with [:.2f]; the record keeps the value). *)
Definition TraceRecord : Type := (string * Q)%type.

(** Computations that append to the log. *)
Definition Logged (A : Type) : Type := list TraceRecord -> A * list TraceRecord.

Definition ret {A : Type} (a : A) : Logged A := fun log => (a, log).

Definition bind {A B : Type} (m : Logged A) (k : A -> Logged B) : Logged B :=
  fun log => let (a, log') := m log in k a log'.

Notation "x <- m ;; k" := (bind m (fun x => k))
  (at level 61, m at next level, right associativity).
Notation "m ;;; k" := (bind m (fun _ => k))
  (at level 61, right associativity).

Definition logging_debug (r : TraceRecord) : Logged unit :=
  fun log => (tt, log ++ [r]).

Record NetSalaryCalculator : Type := mkNetSalaryCalculator {
  deduction_calculators : list DeductionCalculator
}.

Module NetSalary.

(** The [for] loop of [NetSalaryCalculator.calculate]; [deductions] is the
    loop-carried sum. *)
Fixpoint loop (calculators : list DeductionCalculator) (gross_salary : Q)
         (deductions : Q) : Logged Q :=
  match calculators with
  | [] => ret deductions
  | deduction_calculator :: rest =>
      let deduction := calculate deduction_calculator gross_salary in
      logging_debug (repr deduction_calculator, deduction) ;;;
      loop rest gross_salary (deductions + deduction)
  end.

(** [NetSalaryCalculator.calculate]. *)
Definition calculate (self : NetSalaryCalculator) (gross_salary : Q)
  : Logged Q :=
  deductions <- loop (deduction_calculators self) gross_salary 0 ;;
  ret (gross_salary - deductions).

End NetSalary.

(** [NetSalaryCalculatorFactory.create]. *)
Definition create (tax_points : Q) : NetSalaryCalculator :=
  mkNetSalaryCalculator
    [ IncomeTaxCalculator tax_points IncomeTax_default;
      NationalInsuranceCalculator NationalInsurance_default;
      HealthInsuranceCalculator HealthInsurance_default;
      MandatoryPensionSavingsCalculator ].

(** ** The design document's engine, for comparison

    The design document describes its own bracket table, whose last tier may
    be open-ended, a validation step, and an error raised by it.  None of
    the three is in the source; they are written here from the document's
    words, to be compared with the code above. *)

Module Spec.

(** "upper_bound: number ..., or a sentinel unbounded value". *)
Inductive UpperBound : Type :=
| Finite (b : Q)
| Unbounded.

Record Bracket : Type := mkBracket {
  upper_bound : UpperBound;
  rate : Q
}.

(** [min(gross_salary, bracket.upper_bound)]. *)
Definition capped (gross_salary : Q) (ub : UpperBound) : Q :=
  match ub with
  | Finite b => Qmin gross_salary b
  | Unbounded => gross_salary
  end.

(** Steps 1 to 4 of the algorithm, from a running [threshold].  After an
    open-ended tier the threshold is above every salary, so step 1 stops
    the iteration there. *)
Fixpoint apply_from (threshold : Q) (table : list Bracket)
         (gross_salary : Q) : Q :=
  match table with
  | [] => 0
  | bracket :: rest =>
      if Qle_bool threshold gross_salary then
        let taxable_in_tier :=
          capped gross_salary (upper_bound bracket) - threshold in
        taxable_in_tier * rate bracket
        + match upper_bound bracket with
          | Finite b => apply_from b rest gross_salary
          | Unbounded => 0
          end
      else 0
  end.

(** [apply(bracket_table, gross_salary)]: the threshold starts at 0. *)
Definition apply (table : list Bracket) (gross_salary : Q) : Q :=
  apply_from 0 table gross_salary.

(** "brackets are ... strictly ascending". *)
Fixpoint strictly_ascending (brackets : list TaxBracket) : bool :=
  match brackets with
  | [] => true
  | b :: rest =>
      match rest with
      | [] => true
      | b' :: _ =>
          (max_taxable_income b <? max_taxable_income b')%Z
          && strictly_ascending rest
      end
  end.

(** "rate: number in [0,1]". *)
Definition rate_in_range (b : TaxBracket) : bool :=
  Qle_bool 0 (tax_rate b) && Qle_bool (tax_rate b) 1.

(** A well-formed (valid) table: the two conditions the document
    validates. *)
Definition well_formed (brackets : list TaxBracket) : bool :=
  strictly_ascending brackets && forallb rate_in_range brackets.

Inductive Error : Type :=
| ConfigurationError.

(** Construction as the document asks for it: validate, then build. *)
Definition construct (brackets : list TaxBracket)
  : Error + TaxBracketsDeductionCalculator :=
  if well_formed brackets
  then inr (mkTaxBracketsDeductionCalculator brackets)
  else inl ConfigurationError.

(** Constructing and applying, as the document asks for it: a malformed
    table fails with [ConfigurationError], a well-formed one is applied. *)
Definition construct_and_apply (brackets : list TaxBracket)
           (gross_salary : Q) : Error + Q :=
  match construct brackets with
  | inl e => inl e
  | inr c => inr (TaxBrackets.calculate c gross_salary)
  end.

(** The tables as the document lists them. *)
Definition income_tax_table : list Bracket :=
  [ mkBracket (Finite 6450) 0.1;
    mkBracket (Finite 9240) 0.14;
    mkBracket (Finite 14840) 0.2;
    mkBracket (Finite 20620) 0.31;
    mkBracket (Finite 42910) 0.35;
    mkBracket (Finite 55270) 0.47;
    mkBracket Unbounded 0.5 ].

Definition national_insurance_table : list Bracket :=
  [ mkBracket (Finite 6331) 0.004;
    mkBracket Unbounded 0.07 ].

Definition health_insurance_table : list Bracket :=
  [ mkBracket (Finite 6331) 0.031;
    mkBracket Unbounded 0.05 ].

End Spec.

(** Construction as the source does it: the dataclass [__init__] stores the
    list and cannot fail. *)
Definition construct (brackets : list TaxBracket)
  : Spec.Error + TaxBracketsDeductionCalculator :=
  inr (mkTaxBracketsDeductionCalculator brackets).

(** ** The code with Python's numbers and errors

    The same functions once more, now telling [int] from [float] as Python
    does and raising [OverflowError] where an [int] cannot be converted.
    A float is still read as the rational it stands for. *)

Module Py.

(** What can be raised.  The source contains no [raise]; the only error its
    arithmetic can produce is [OverflowError].  [Configuration] wraps the
    design document's error so that outcomes can be compared with it. *)
Inductive Exception : Type :=
| OverflowError
| Configuration (e : Spec.Error).

Inductive Num : Type :=
| Int (z : Z)
| Float (q : Q).

Definition value (x : Num) : Q :=
  match x with
  | Int z => inject_Z z
  | Float q => q
  end.

(** [float(n)] raises for [abs(n) >= 2**1024 - 2**970], where rounding to
    the nearest float would leave the range. *)
Definition float_limit : Z := 2 ^ 1024 - 2 ^ 970.

Definition to_float (x : Num) : Exception + Q :=
  match x with
  | Float q => inr q
  | Int z =>
      if (Z.abs z <? float_limit)%Z then inr (inject_Z z)
      else inl OverflowError
  end.

Notation "x <~ m ;; k" :=
  (match m with inl e => inl e | inr x => k end)
  (at level 61, m at next level, right associativity).

(** A binary operator: [int] with [int] stays exact, anything else is
    computed on floats after conversion. *)
Definition arith (int_op : Z -> Z -> Z) (float_op : Q -> Q -> Q)
           (x y : Num) : Exception + Num :=
  match x, y with
  | Int a, Int b => inr (Int (int_op a b))
  | _, _ =>
      a <~ to_float x ;;
      b <~ to_float y ;;
      inr (Float (float_op a b))
  end.

Definition add : Num -> Num -> Exception + Num := arith Z.add Qplus.
Definition sub : Num -> Num -> Exception + Num := arith Z.sub Qminus.
Definition mul : Num -> Num -> Exception + Num := arith Z.mul Qmult.

(** [min(x, y)]: the first argument unless the second is smaller; the
    comparison of an [int] with a [float] is exact. *)
Definition min (x y : Num) : Num :=
  if Qle_bool (value x) (value y) then x else y.

(** The [for] loop of [TaxBracketsDeductionCalculator.calculate]. *)
Fixpoint loop (brackets : list TaxBracket) (deduction : Num)
         (last_max_taxable_income : Z) (gross_salary : Num)
  : Exception + Num :=
  match brackets with
  | [] => inr deduction
  | tax_bracket :: rest =>
      if Qle_bool (inject_Z last_max_taxable_income) (value gross_salary) then
        bracket_taxable_income <~
          sub (min gross_salary (Int (max_taxable_income tax_bracket)))
              (Int last_max_taxable_income) ;;
        bracket_tax_deduction <~
          mul bracket_taxable_income (Float (tax_rate tax_bracket)) ;;
        deduction' <~ add deduction bracket_tax_deduction ;;
        loop rest deduction' (max_taxable_income tax_bracket) gross_salary
      else inr deduction
  end.

(** [TaxBracketsDeductionCalculator.calculate]: [deduction = 0] and
    [last_max_taxable_income = 0] are [int]s. *)
Definition bracket_calculate (self : TaxBracketsDeductionCalculator)
           (gross_salary : Num) : Exception + Num :=
  loop (tax_brackets self) (Int 0) 0%Z gross_salary.

(** [calculate] of each rule; [TAX_POINT_VALUE] is the [int] 223 and the
    tax points and the pension rate are floats. *)
Definition calculate (self : DeductionCalculator) (gross_salary : Num)
  : Exception + Num :=
  match self with
  | IncomeTaxCalculator tax_points c =>
      gross_tax <~ bracket_calculate c gross_salary ;;
      credit <~ mul (Int 223) (Float tax_points) ;;
      sub gross_tax credit
  | NationalInsuranceCalculator c => bracket_calculate c gross_salary
  | HealthInsuranceCalculator c => bracket_calculate c gross_salary
  | MandatoryPensionSavingsCalculator => mul gross_salary (Float 0.06)
  end.

(** A computation that appends to the log and may raise; what was logged
    before the error stays logged. *)
Definition Run (A : Type) : Type :=
  list TraceRecord -> (Exception + A) * list TraceRecord.

(** The [for] loop of [NetSalaryCalculator.calculate]: call the rule, add
    its amount to [deductions], format the amount with [:.2f] (which
    converts it to a float) and log it. *)
Fixpoint net_loop (calculators : list DeductionCalculator)
         (gross_salary : Num) (deductions : Num) : Run Num :=
  fun log =>
    match calculators with
    | [] => (inr deductions, log)
    | deduction_calculator :: rest =>
        match calculate deduction_calculator gross_salary with
        | inl e => (inl e, log)
        | inr deduction =>
            match add deductions deduction with
            | inl e => (inl e, log)
            | inr deductions' =>
                match to_float deduction with
                | inl e => (inl e, log)
                | inr amount =>
                    net_loop rest gross_salary deductions'
                             (log ++ [(repr deduction_calculator, amount)])
                end
            end
        end
    end.

(** [NetSalaryCalculator.calculate]: [deductions = 0] is an [int]. *)
Definition net_calculate (self : NetSalaryCalculator) (gross_salary : Num)
  : Run Num :=
  fun log =>
    match net_loop (deduction_calculators self) gross_salary (Int 0) log with
    | (inl e, log') => (inl e, log')
    | (inr deductions, log') => (sub gross_salary deductions, log')
    end.

(** Constructing a calculator from a table and applying it to a salary, as
    the source does it. *)
Definition construct_and_calculate (brackets : list TaxBracket)
           (gross_salary : Num) : Exception + Num :=
  match construct brackets with
  | inl e => inl (Configuration e)
  | inr c => bracket_calculate c gross_salary
  end.




End Py.

(** A code bracket read as a bracket of the document. *)
Definition to_spec (b : TaxBracket) : Spec.Bracket :=
  Spec.mkBracket (Spec.Finite (inject_Z (max_taxable_income b))) (tax_rate b).

(** [chain last bs]: the ceilings of [bs] ascend strictly, starting above
    [last]. *)
Fixpoint chain (last : Z) (brackets : list TaxBracket) : Prop :=
  match brackets with
  | [] => True
  | b :: rest =>
      (last < max_taxable_income b)%Z /\ chain (max_taxable_income b) rest
  end.

(** Every rate of the table is non-negative. *)
Definition rates_nonneg (bs : list TaxBracket) : Prop :=
  Forall (fun b => 0 <= tax_rate b) bs.

(** The rules as the factory configures them. *)
Definition income_tax (tax_points : Q) : DeductionCalculator :=
  IncomeTaxCalculator tax_points IncomeTax_default.

Definition national_insurance : DeductionCalculator :=
  NationalInsuranceCalculator NationalInsurance_default.

Definition health_insurance : DeductionCalculator :=
  HealthInsuranceCalculator HealthInsurance_default.

(** The amounts the rules return for one salary, in pipeline order. *)
Definition amounts (rules : list DeductionCalculator) (gross_salary : Q)
  : list Q :=
  map (fun rule => calculate rule gross_salary) rules.

(** The trace records one pass over the rules leaves behind. *)
Definition trace (rules : list DeductionCalculator) (gross_salary : Q)
  : list TraceRecord :=
  map (fun rule => (repr rule, calculate rule gross_salary)) rules.

Definition Qsum (l : list Q) : Q := fold_right Qplus 0 l.

(** ** Closed forms for the bracket loop *)

(** The ceiling the loop has reached after the tiers [bs], starting from
    [last]. *)
Definition top_ceiling (last : Z) (bs : list TaxBracket) : Z :=
  fold_left (fun _ b => max_taxable_income b) bs last.

(** What the tiers [bs] add when each is taxed over its whole width. *)
Fixpoint full_tiers (last : Z) (bs : list TaxBracket) : Q :=
  match bs with
  | [] => 0
  | b :: rest =>
      (inject_Z (max_taxable_income b) - inject_Z last) * tax_rate b
      + full_tiers (max_taxable_income b) rest
  end.

(** ** Vocabulary for the pipeline's outcomes *)

(** [records_of g trace rules]: [trace] holds one record per rule of
    [rules], in the same order, each with the rule's name and the amount
    the rule returns for the salary [g]. *)
Definition records_of (g : Q) (trace : list TraceRecord)
           (rules : list DeductionCalculator) : Prop :=
  Forall2 (fun (rec : TraceRecord) (rule : DeductionCalculator) =>
             fst rec = repr rule /\ snd rec == calculate rule g)
          trace rules.





(** * Properties of the bracket loop *)

Section BracketLoop.

Import TaxBrackets.

Lemma loop_nil d last g : loop [] d last g = d.
Proof. reflexivity. Qed.

Lemma loop_break b rest d last g :
  Qle_bool (inject_Z last) g = false -> loop (b :: rest) d last g = d.
Proof. intros H. simpl. now rewrite H. Qed.

Lemma loop_step b rest d last g :
  Qle_bool (inject_Z last) g = true ->
  loop (b :: rest) d last g =
  loop rest
       (d + (Qmin g (inject_Z (max_taxable_income b)) - inject_Z last)
            * tax_rate b)
       (max_taxable_income b) g.
Proof. intros H. simpl. now rewrite H. Qed.

(** The accumulator only carries a sum: the loop adds to whatever it is
    started with. *)
Lemma loop_acc bs : forall d last g,
  loop bs d last g == d + loop bs 0 last g.
Proof.
  induction bs as [|b rest IH]; intros d last g.
  - simpl. lra.
  - simpl. destruct (Qle_bool (inject_Z last) g).
    + rewrite IH. rewrite (IH (0 + _)). lra.
    + lra.
Qed.

(** Below the running threshold nothing is added. *)
Lemma loop_below bs d last g :
  g < inject_Z last -> loop bs d last g = d.
Proof.
  intros H. destruct bs as [|b rest]; [reflexivity|].
  apply loop_break. destruct (Qle_bool (inject_Z last) g) eqn:E; [|reflexivity].
  apply Qle_bool_iff in E. lra.
Qed.

Lemma inject_Z_lt a b : (a < b)%Z -> inject_Z a < inject_Z b.
Proof. intros H. now rewrite <- Zlt_Qlt. Qed.

Lemma inject_Z_le a b : (a <= b)%Z -> inject_Z a <= inject_Z b.
Proof. intros H. now rewrite <- Zle_Qle. Qed.

(** One tier's taxable income never shrinks when the salary grows, and is
    non-negative once the salary has reached the tier. *)
Lemma tier_income_mono g1 g2 b last :
  g1 <= g2 -> Qmin g1 b - last <= Qmin g2 b - last.
Proof.
  intros H.
  destruct (Q.min_spec g1 b) as [[H1 E1]|[H1 E1]];
    destruct (Q.min_spec g2 b) as [[H2 E2]|[H2 E2]];
    rewrite E1, E2; lra.
Qed.

Lemma tier_income_nonneg g b last :
  last <= g -> last <= b -> 0 <= Qmin g b - last.
Proof.
  intros H1 H2.
  destruct (Q.min_spec g b) as [[H E]|[H E]]; rewrite E; lra.
Qed.

Lemma Qmult_le_mono_r a b r : 0 <= r -> a <= b -> a * r <= b * r.
Proof. intros Hr Hab. nra. Qed.

(** On an ascending chain the loop never yields a negative amount. *)
Lemma loop_nonneg bs : forall last g,
  chain last bs -> rates_nonneg bs -> 0 <= loop bs 0 last g.
Proof.
  induction bs as [|b rest IH]; intros last g Hc Hr.
  - simpl. lra.
  - destruct Hc as [Hlt Hc]. inversion Hr as [|? ? Hb Hrest]; subst.
    destruct (Qle_bool (inject_Z last) g) eqn:E.
    + rewrite loop_step by exact E. rewrite loop_acc.
      apply Qle_bool_iff in E. apply inject_Z_lt in Hlt.
      pose proof (IH (max_taxable_income b) g Hc Hrest) as Hn.
      pose proof (tier_income_nonneg g (inject_Z (max_taxable_income b))
                    (inject_Z last) E (Qlt_le_weak _ _ Hlt)) as Ht.
      pose proof (Qmult_le_0_compat _ _ Ht Hb). lra.
    + rewrite loop_break by exact E. lra.
Qed.

(** On an ascending chain the loop is monotone in the salary. *)
Lemma loop_mono bs : forall last g1 g2,
  chain last bs -> rates_nonneg bs -> g1 <= g2 ->
  loop bs 0 last g1 <= loop bs 0 last g2.
Proof.
  induction bs as [|b rest IH]; intros last g1 g2 Hc Hr Hg.
  - simpl. lra.
  - pose proof (loop_nonneg (b :: rest) last g2 Hc Hr) as Hn2.
    destruct Hc as [Hlt Hc]. inversion Hr as [|? ? Hb Hrest]; subst.
    destruct (Qle_bool (inject_Z last) g1) eqn:E1.
    + assert (E2 : Qle_bool (inject_Z last) g2 = true).
      { apply Qle_bool_iff. apply Qle_bool_iff in E1. lra. }
      rewrite !loop_step by assumption.
      rewrite (loop_acc rest (0 + _) _ g1), (loop_acc rest (0 + _) _ g2).
      pose proof (IH (max_taxable_income b) g1 g2 Hc Hrest Hg).
      pose proof (Qmult_le_mono_r _ _ _ Hb
                    (tier_income_mono g1 g2 (inject_Z (max_taxable_income b))
                       (inject_Z last) Hg)).
      lra.
    + rewrite (loop_break b rest 0 last g1) by exact E1. exact Hn2.
Qed.

Lemma strictly_ascending_chain b rest :
  Spec.strictly_ascending (b :: rest) = true ->
  chain (max_taxable_income b) rest.
Proof.
  revert b. induction rest as [|b' rest IH]; intros b H.
  - exact I.
  - simpl in H. apply andb_true_iff in H. destruct H as [H1 H2].
    split; [now apply Z.ltb_lt|]. apply IH. exact H2.
Qed.

Lemma rate_in_range_nonneg bs :
  forallb Spec.rate_in_range bs = true -> rates_nonneg bs.
Proof.
  intros H. apply Forall_forall. intros b Hb.
  rewrite forallb_forall in H. specialize (H b Hb).
  apply andb_true_iff in H. destruct H as [H _].
  now apply Qle_bool_iff.
Qed.

End BracketLoop.


(** * The pipeline *)

Lemma net_loop_run rules : forall g d log,
  fst (NetSalary.loop rules g d log) == d + Qsum (amounts rules g)
  /\ snd (NetSalary.loop rules g d log) = log ++ trace rules g.
Proof.
  induction rules as [|rule rest IH]; intros g d log.
  - simpl. split; [lra | now rewrite app_nil_r].
  - cbn [NetSalary.loop]. unfold bind, logging_debug. cbv beta iota zeta.
    destruct (IH g (d + calculate rule g) (log ++ [(repr rule, calculate rule g)]))
      as [Hd Hl].
    split.
    + rewrite Hd. simpl. lra.
    + rewrite <- app_assoc in Hl. exact Hl.
Qed.

Lemma net_calculate_run rules g log :
  fst (NetSalary.calculate (mkNetSalaryCalculator rules) g log)
    == g - Qsum (amounts rules g)
  /\ snd (NetSalary.calculate (mkNetSalaryCalculator rules) g log)
     = log ++ trace rules g.
Proof.
  unfold NetSalary.calculate, bind, ret. simpl deduction_calculators.
  destruct (net_loop_run rules g 0 log) as [Hd Hl].
  destruct (NetSalary.loop rules g 0 log) as [d log'] eqn:E.
  simpl in *. split; [rewrite Hd; lra | exact Hl].
Qed.

(** C10.  With no rule configured the pipeline returns the salary it was
    given and leaves the log as it was. *)
Theorem C10_empty_pipeline_identity :
  forall (gross_salary : Q) (log : list TraceRecord),
    fst (NetSalary.calculate (mkNetSalaryCalculator []) gross_salary log)
      == gross_salary
    /\ snd (NetSalary.calculate (mkNetSalaryCalculator []) gross_salary log)
       = log.
Proof.
  intros g log. unfold NetSalary.calculate, bind, ret. simpl.
  split; [lra | reflexivity].
Qed.

(** C5.  Salary 10000 with 2.25 tax points through the factory's pipeline:
    the four rules return 685.85, 282.154, 379.711 and 600, in that order
    and under their names in the trace; the deductions add up to 1947.715
    and the net salary is 8052.285. *)
Theorem C5_scenario_10000 :
  let pipeline := create 2.25 in
  let run := NetSalary.calculate pipeline 10000 [] in
  Forall2 (fun (r : TraceRecord) (e : TraceRecord) =>
             fst r = fst e /\ snd r == snd e)
          (snd run)
          [ ("Income tax"%string, 685.85);
            ("National insurance"%string, 282.154);
            ("Health insurance"%string, 379.711);
            ("Mandatory pension savings"%string, 600) ]
  /\ fold_right Qplus 0
       (map (fun rule => calculate rule 10000) (deduction_calculators pipeline))
     == 1947.715
  /\ fst run == 8052.285.
Proof.
  cbv zeta. split; [|split].
  - vm_compute. repeat constructor.
  - vm_compute. reflexivity.
  - vm_compute. reflexivity.
Qed.

(** * The code's loop against the document's engine *)

(** On a table all of whose ceilings are finite, the loop computes what the
    document's algorithm computes. *)
Lemma loop_refines_spec bs : forall last g,
  TaxBrackets.loop bs 0 last g
  == Spec.apply_from (inject_Z last) (map to_spec bs) g.
Proof.
  induction bs as [|b rest IH]; intros last g.
  - reflexivity.
  - simpl. destruct (Qle_bool (inject_Z last) g); [|reflexivity].
    rewrite loop_acc, IH. lra.
Qed.

(** A finite ceiling on the last tier cannot be told from an open end by a
    salary that does not exceed it. *)
Lemma open_last_tier pre : forall last B r g,
  g <= B ->
  Spec.apply_from last (pre ++ [Spec.mkBracket (Spec.Finite B) r]) g
  == Spec.apply_from last (pre ++ [Spec.mkBracket Spec.Unbounded r]) g.
Proof.
  induction pre as [|a pre IH]; intros last B r g Hg.
  - simpl. destruct (Qle_bool last g); [|reflexivity].
    rewrite (Q.min_l g B Hg). reflexivity.
  - simpl. destruct (Qle_bool last g); [|reflexivity].
    destruct (Spec.upper_bound a) as [b|]; [|reflexivity].
    rewrite (IH b B r g Hg). reflexivity.
Qed.

Lemma calculate_refines_spec pre B r g :
  g <= inject_Z B ->
  TaxBrackets.calculate
    (mkTaxBracketsDeductionCalculator (pre ++ [mkTaxBracket B r])) g
  == Spec.apply (map to_spec pre ++ [Spec.mkBracket Spec.Unbounded r]) g.
Proof.
  intros Hg. unfold TaxBrackets.calculate, Spec.apply. simpl tax_brackets.
  rewrite loop_refines_spec, map_app.
  exact (open_last_tier (map to_spec pre) (inject_Z 0) (inject_Z B) r g Hg).
Qed.

(** * National Insurance and Health Insurance *)

(** A two-tier table between its two ceilings. *)
Lemma two_tier_middle b1 r1 b2 r2 g :
  (0 <= b1)%Z -> inject_Z b1 <= g -> g <= inject_Z b2 ->
  TaxBrackets.calculate
    (mkTaxBracketsDeductionCalculator [mkTaxBracket b1 r1; mkTaxBracket b2 r2]) g
  == inject_Z b1 * r1 + (g - inject_Z b1) * r2.
Proof.
  intros H0 H1 H2. apply inject_Z_le in H0.
  unfold TaxBrackets.calculate. simpl tax_brackets.
  rewrite loop_step by (apply Qle_bool_iff; lra).
  rewrite loop_step by (apply Qle_bool_iff; exact H1).
  rewrite loop_nil. simpl max_taxable_income. simpl tax_rate.
  rewrite (Q.min_r g (inject_Z b1) H1), (Q.min_l g (inject_Z b2) H2).
  change (inject_Z 0) with 0. ring.
Qed.

(** A two-tier table from its second ceiling on. *)
Lemma two_tier_capped b1 r1 b2 r2 g :
  (0 <= b1)%Z -> (b1 <= b2)%Z -> inject_Z b2 <= g ->
  TaxBrackets.calculate
    (mkTaxBracketsDeductionCalculator [mkTaxBracket b1 r1; mkTaxBracket b2 r2]) g
  == inject_Z b1 * r1 + (inject_Z b2 - inject_Z b1) * r2.
Proof.
  intros H0 H12 H2. apply inject_Z_le in H0. apply inject_Z_le in H12.
  assert (H1 : inject_Z b1 <= g) by lra.
  unfold TaxBrackets.calculate. simpl tax_brackets.
  rewrite loop_step by (apply Qle_bool_iff; lra).
  rewrite loop_step by (apply Qle_bool_iff; exact H1).
  rewrite loop_nil. simpl max_taxable_income. simpl tax_rate.
  rewrite (Q.min_r g (inject_Z b1) H1), (Q.min_r g (inject_Z b2) H2).
  change (inject_Z 0) with 0. ring.
Qed.

(** C1, as the code has it.  Both rules are the bracket loop on a two-tier
    table whose first ceiling is 6331 and whose second ceiling is 44020
    (rates 0.004 and 0.07 for National Insurance, 0.031 and 0.05 for Health
    Insurance).  For every salary from 6331 up to 44020 the deduction is
    6331 * rate1 + (salary - 6331) * rate2, and up to 44020 both rules
    agree with the document's engine on the table with an open second
    tier. *)
Theorem C1_insurance_rules_two_tier_capped_at_44020 :
  (forall gross_salary : Q,
      calculate national_insurance gross_salary
      = TaxBrackets.calculate
          (mkTaxBracketsDeductionCalculator
             [mkTaxBracket 6331 0.004; mkTaxBracket 44020 0.07]) gross_salary
      /\ calculate health_insurance gross_salary
         = TaxBrackets.calculate
             (mkTaxBracketsDeductionCalculator
                [mkTaxBracket 6331 0.031; mkTaxBracket 44020 0.05]) gross_salary)
  /\ (forall gross_salary : Q,
        6331 <= gross_salary -> gross_salary <= 44020 ->
        calculate national_insurance gross_salary
        == 6331 * 0.004 + (gross_salary - 6331) * 0.07
        /\ calculate health_insurance gross_salary
           == 6331 * 0.031 + (gross_salary - 6331) * 0.05)
  /\ (forall gross_salary : Q,
        gross_salary <= 44020 ->
        calculate national_insurance gross_salary
        == Spec.apply Spec.national_insurance_table gross_salary
        /\ calculate health_insurance gross_salary
           == Spec.apply Spec.health_insurance_table gross_salary).
Proof.
  split; [|split].
  - intros g. split; reflexivity.
  - intros g H1 H2. split.
    + exact (two_tier_middle 6331 0.004 44020 0.07 g ltac:(lia) H1 H2).
    + exact (two_tier_middle 6331 0.031 44020 0.05 g ltac:(lia) H1 H2).
  - intros g H. split.
    + exact (calculate_refines_spec [mkTaxBracket 6331 0.004] 44020 0.07 g H).
    + exact (calculate_refines_spec [mkTaxBracket 6331 0.031] 44020 0.05 g H).
Qed.

(** The amended C1 at salary 10000. *)
Lemma C1_witness_10000 :
  calculate national_insurance 10000 == 6331 * 0.004 + (10000 - 6331) * 0.07
  /\ calculate health_insurance 10000 == 6331 * 0.031 + (10000 - 6331) * 0.05.
Proof.
  apply (proj1 (proj2 C1_insurance_rules_two_tier_capped_at_44020) 10000).
  - vm_compute. discriminate.
  - vm_compute. discriminate.
Defined.

(** C1 as stated fails above the second ceiling: at salary 50000 National
    Insurance returns 2663.554, not 6331 * 0.004 + (50000 - 6331) * 0.07
    = 3082.154, and it differs from the engine on an open second tier. *)
Lemma C1_counterexample_50000 :
  6331 <= 50000
  /\ calculate national_insurance 50000 == 2663.554
  /\ ~ calculate national_insurance 50000
       == 6331 * 0.004 + (50000 - 6331) * 0.07
  /\ ~ calculate national_insurance 50000
       == Spec.apply Spec.national_insurance_table 50000
  /\ ~ calculate health_insurance 50000
       == 6331 * 0.031 + (50000 - 6331) * 0.05.
Proof.
  repeat split; vm_compute; discriminate.
Qed.

(** C9.  From salary 44020 on, both insurance deductions stay at the value
    they have at 44020: 6331 * 0.004 + (44020 - 6331) * 0.07 for National
    Insurance and 6331 * 0.031 + (44020 - 6331) * 0.05 for Health
    Insurance. *)
Theorem C9_insurance_constant_above_44020 :
  forall gross_salary : Q,
    44020 <= gross_salary ->
    (calculate national_insurance gross_salary
     == calculate national_insurance 44020
     /\ calculate national_insurance gross_salary
        == 6331 * 0.004 + (44020 - 6331) * 0.07)
    /\ (calculate health_insurance gross_salary
        == calculate health_insurance 44020
        /\ calculate health_insurance gross_salary
           == 6331 * 0.031 + (44020 - 6331) * 0.05).
Proof.
  intros g H.
  pose proof (two_tier_capped 6331 0.004 44020 0.07 g ltac:(lia) ltac:(lia) H)
    as HN.
  pose proof (two_tier_capped 6331 0.031 44020 0.05 g ltac:(lia) ltac:(lia) H)
    as HH.
  assert (EN : calculate national_insurance 44020
               == 6331 * 0.004 + (44020 - 6331) * 0.07)
    by (vm_compute; reflexivity).
  assert (EH : calculate health_insurance 44020
               == 6331 * 0.031 + (44020 - 6331) * 0.05)
    by (vm_compute; reflexivity).
  repeat split.
  - rewrite EN. exact HN.
  - exact HN.
  - rewrite EH. exact HH.
  - exact HH.
Qed.

(** C9 at salary 50000. *)
Lemma C9_witness_50000 :
  (calculate national_insurance 50000 == calculate national_insurance 44020
   /\ calculate national_insurance 50000
      == 6331 * 0.004 + (44020 - 6331) * 0.07)
  /\ (calculate health_insurance 50000 == calculate health_insurance 44020
      /\ calculate health_insurance 50000
         == 6331 * 0.031 + (44020 - 6331) * 0.05).
Proof.
  apply (C9_insurance_constant_above_44020 50000).
  vm_compute. discriminate.
Defined.

(** * The bracket loop on arbitrary tables *)

(** C6.  On a table with strictly ascending ceilings and rates in [0,1],
    the bracket deduction does not decrease when a non-negative salary
    grows. *)
Theorem C6_bracket_deduction_monotone :
  forall (table : list TaxBracket) (g1 g2 : Q),
    Spec.strictly_ascending table = true ->
    forallb Spec.rate_in_range table = true ->
    0 <= g1 -> g1 <= g2 ->
    TaxBrackets.calculate (mkTaxBracketsDeductionCalculator table) g1
    <= TaxBrackets.calculate (mkTaxBracketsDeductionCalculator table) g2.
Proof.
  intros table g1 g2 Hasc Hrates H0 H12.
  unfold TaxBrackets.calculate. simpl tax_brackets.
  destruct table as [|b rest].
  - simpl. lra.
  - pose proof (strictly_ascending_chain b rest Hasc) as Hc.
    pose proof (rate_in_range_nonneg _ Hrates) as Hr.
    inversion Hr as [|? ? Hb Hrest]; subst.
    rewrite !loop_step by (apply Qle_bool_iff; change (inject_Z 0) with 0; lra).
    rewrite (loop_acc rest (0 + _) _ g1), (loop_acc rest (0 + _) _ g2).
    pose proof (loop_mono rest (max_taxable_income b) g1 g2 Hc Hrest H12).
    pose proof (Qmult_le_mono_r _ _ _ Hb
                  (tier_income_mono g1 g2 (inject_Z (max_taxable_income b))
                     (inject_Z 0) H12)).
    lra.
Qed.

(** C6 on the income-tax table, between salaries 5000 and 10000. *)
Lemma C6_witness_income_tax :
  TaxBrackets.calculate
    (mkTaxBracketsDeductionCalculator (tax_brackets IncomeTax_default)) 5000
  <= TaxBrackets.calculate
       (mkTaxBracketsDeductionCalculator (tax_brackets IncomeTax_default)) 10000.
Proof.
  apply (C6_bracket_deduction_monotone (tax_brackets IncomeTax_default)).
  - vm_compute. reflexivity.
  - vm_compute. reflexivity.
  - vm_compute. discriminate.
  - vm_compute. discriminate.
Defined.

(** A single tier below its ceiling is a flat rate. *)
Lemma single_tier_flat B r g :
  0 <= g -> g <= inject_Z B ->
  TaxBrackets.calculate
    (mkTaxBracketsDeductionCalculator [mkTaxBracket B r]) g == g * r.
Proof.
  intros H0 HB. unfold TaxBrackets.calculate. simpl tax_brackets.
  rewrite loop_step by (apply Qle_bool_iff; exact H0).
  rewrite loop_nil. simpl max_taxable_income. simpl tax_rate.
  rewrite (Q.min_l g (inject_Z B) HB).
  change (inject_Z 0) with 0. ring.
Qed.

(** A negative salary leaves the loop at once, whatever the table. *)
Lemma negative_salary_no_deduction table g :
  g < 0 ->
  TaxBrackets.calculate (mkTaxBracketsDeductionCalculator table) g = 0.
Proof.
  intros H. unfold TaxBrackets.calculate. simpl tax_brackets.
  now apply loop_below.
Qed.

(** C7, as the code has it.  A table of a single tier with rate r yields
    salary * r for every salary from 0 up to the tier's ceiling; the code
    writes an open-ended tier with the ceiling [sys.maxsize], and up to it
    agrees with the document's engine on an open tier.  A negative salary
    yields 0. *)
Theorem C7_single_tier_flat_rate_for_nonnegative_salary :
  (forall (B : Z) (r g : Q),
      0 <= g -> g <= inject_Z B ->
      TaxBrackets.calculate
        (mkTaxBracketsDeductionCalculator [mkTaxBracket B r]) g == g * r)
  /\ (forall r g : Q,
        0 <= g -> g <= inject_Z sys_maxsize ->
        TaxBrackets.calculate
          (mkTaxBracketsDeductionCalculator [mkTaxBracket sys_maxsize r]) g
        == g * r
        /\ Spec.apply [Spec.mkBracket Spec.Unbounded r] g == g * r)
  /\ (forall (B : Z) (r g : Q),
        g < 0 ->
        TaxBrackets.calculate
          (mkTaxBracketsDeductionCalculator [mkTaxBracket B r]) g == 0).
Proof.
  split; [|split].
  - intros B r g H0 HB. now apply single_tier_flat.
  - intros r g H0 HB. split.
    + now apply single_tier_flat.
    + unfold Spec.apply. simpl.
      apply Qle_bool_iff in H0. rewrite H0. ring.
  - intros B r g H. rewrite negative_salary_no_deduction by exact H.
    reflexivity.
Qed.

(** The amended C7 on the sentinel tier, at salary 10000 and rate 0.06. *)
Lemma C7_witness_10000 :
  TaxBrackets.calculate
    (mkTaxBracketsDeductionCalculator [mkTaxBracket sys_maxsize 0.06]) 10000
  == 10000 * 0.06.
Proof.
  apply (proj1 C7_single_tier_flat_rate_for_nonnegative_salary
           sys_maxsize 0.06 10000).
  - vm_compute. discriminate.
  - vm_compute. discriminate.
Defined.

(** C7 as stated fails for a negative salary: on the single tier with
    ceiling [sys.maxsize] and rate 0.5, salary -100 yields 0, not -50. *)
Lemma C7_counterexample_negative_salary :
  TaxBrackets.calculate
    (mkTaxBracketsDeductionCalculator [mkTaxBracket sys_maxsize 0.5]) (-100)
  == 0
  /\ ~ TaxBrackets.calculate
         (mkTaxBracketsDeductionCalculator [mkTaxBracket sys_maxsize 0.5])
         (-100)
       == -100 * 0.5.
Proof.
  split; vm_compute; [reflexivity | discriminate].
Qed.

(** At the running threshold of an ascending chain nothing is added. *)
Lemma loop_at_threshold bs d last g :
  chain last bs -> g == inject_Z last ->
  TaxBrackets.loop bs d last g == d.
Proof.
  intros Hc Hg. destruct bs as [|b rest]; [reflexivity|].
  destruct Hc as [Hlt _]. apply inject_Z_lt in Hlt.
  rewrite loop_step by (apply Qle_bool_iff; lra).
  rewrite loop_below by lra.
  rewrite (Q.min_l g (inject_Z (max_taxable_income b))) by lra.
  rewrite Hg. ring.
Qed.

(** C8, as the code has it.  A negative salary yields 0 on every table.
    Salary 0 yields 0 on every table with strictly ascending ceilings and
    rates in [0,1] whose ceilings are non-negative. *)
Theorem C8_no_deduction_for_nonpositive_salary :
  (forall (table : list TaxBracket) (g : Q),
      g < 0 ->
      TaxBrackets.calculate (mkTaxBracketsDeductionCalculator table) g == 0)
  /\ (forall (table : list TaxBracket) (g : Q),
        Spec.well_formed table = true ->
        Forall (fun b => (0 <= max_taxable_income b)%Z) table ->
        g <= 0 ->
        TaxBrackets.calculate (mkTaxBracketsDeductionCalculator table) g == 0).
Proof.
  split.
  - intros table g H. rewrite negative_salary_no_deduction by exact H.
    reflexivity.
  - intros table g Hwf Hpos Hg.
    destruct (Qlt_le_dec g 0) as [Hneg|H0].
    { rewrite negative_salary_no_deduction by exact Hneg. reflexivity. }
    assert (E : g == 0) by lra.
    unfold Spec.well_formed in Hwf. apply andb_true_iff in Hwf.
    destruct Hwf as [Hasc _].
    unfold TaxBrackets.calculate. simpl tax_brackets.
    destruct table as [|b rest]; [reflexivity|].
    pose proof (strictly_ascending_chain b rest Hasc) as Hc.
    inversion Hpos as [|? ? Hb _]; subst.
    destruct (Z.eq_dec (max_taxable_income b) 0) as [Eb|Nb].
    + rewrite loop_step by (apply Qle_bool_iff; exact H0).
      rewrite Eb in *. rewrite loop_at_threshold by assumption.
      rewrite (Q.min_l g (inject_Z 0)) by (change (inject_Z 0) with 0; lra).
      change (inject_Z 0) with 0. rewrite E. ring.
    + apply loop_at_threshold; [|exact E].
      split; [lia | exact Hc].
Qed.

(** The amended C8 on the income-tax table, at salary 0. *)
Lemma C8_witness_income_tax_at_0 :
  TaxBrackets.calculate
    (mkTaxBracketsDeductionCalculator (tax_brackets IncomeTax_default)) 0 == 0.
Proof.
  apply (proj2 C8_no_deduction_for_nonpositive_salary
           (tax_brackets IncomeTax_default) 0).
  - vm_compute. reflexivity.
  - repeat constructor; vm_compute; discriminate.
  - vm_compute. discriminate.
Defined.

(** C8 as stated fails at salary 0 on a table that passes both validity
    conditions but starts below zero: ceilings -5 and 10, rates 0.5 and 1.
    The first tier adds -5 * 0.5, the second (0 + 5) * 1, so the result is
    2.5. *)
Lemma C8_counterexample_negative_ceiling :
  Spec.well_formed [mkTaxBracket (-5) 0.5; mkTaxBracket 10 1] = true
  /\ TaxBrackets.calculate
       (mkTaxBracketsDeductionCalculator
          [mkTaxBracket (-5) 0.5; mkTaxBracket 10 1]) 0 == 2.5
  /\ ~ TaxBrackets.calculate
         (mkTaxBracketsDeductionCalculator
            [mkTaxBracket (-5) 0.5; mkTaxBracket 10 1]) 0 == 0.
Proof.
  split; [|split]; vm_compute; [reflexivity | reflexivity | discriminate].
Qed.

(** * Income tax *)

(** C3, as the code has it.  The Income Tax rule returns the bracket
    deduction on its table minus 223 per tax point, for every salary, every
    number of tax points and every configured table.  The default table has
    seven tiers with ceilings 6450, 9240, 14840, 20620, 42910, 55270 and
    [sys.maxsize] = 9223372036854775807 and rates 0.1, 0.14, 0.2, 0.31,
    0.35, 0.47 and 0.5; for every salary up to [sys.maxsize] the rule
    agrees with the document's engine on the table whose seventh tier is
    open-ended.  The result is not clamped: it is negative at salary 0 with
    2.25 tax points. *)
Theorem C3_income_tax_rule :
  (forall (c : TaxBracketsDeductionCalculator) (tax_points gross_salary : Q),
      calculate (IncomeTaxCalculator tax_points c) gross_salary
      = TaxBrackets.calculate c gross_salary - TAX_POINT_VALUE * tax_points)
  /\ TAX_POINT_VALUE = 223
  /\ (map max_taxable_income (tax_brackets IncomeTax_default)
      = [6450; 9240; 14840; 20620; 42910; 55270; 9223372036854775807]%Z
      /\ map tax_rate (tax_brackets IncomeTax_default)
         = [0.1; 0.14; 0.2; 0.31; 0.35; 0.47; 0.5])
  /\ (forall tax_points gross_salary : Q,
        gross_salary <= 9223372036854775807 ->
        calculate (income_tax tax_points) gross_salary
        == Spec.apply Spec.income_tax_table gross_salary - 223 * tax_points)
  /\ calculate (income_tax 2.25) 0 < 0.
Proof.
  split; [|split; [|split; [|split]]].
  - intros c tp g. reflexivity.
  - reflexivity.
  - split; reflexivity.
  - intros tp g Hg. unfold income_tax, calculate.
    change TAX_POINT_VALUE with 223.
    pose proof (calculate_refines_spec
                  [ mkTaxBracket 6450 0.1; mkTaxBracket 9240 0.14;
                    mkTaxBracket 14840 0.2; mkTaxBracket 20620 0.31;
                    mkTaxBracket 42910 0.35; mkTaxBracket 55270 0.47 ]
                  sys_maxsize 0.5 g Hg) as E.
    change (TaxBrackets.calculate IncomeTax_default g
            == Spec.apply Spec.income_tax_table g) in E.
    rewrite E. reflexivity.
  - vm_compute. reflexivity.
Qed.

(** The amended C3 at salary 10000 with 2.25 tax points. *)
Lemma C3_witness_10000 :
  calculate (income_tax 2.25) 10000
  == Spec.apply Spec.income_tax_table 10000 - 223 * 2.25.
Proof.
  apply (proj1 (proj2 (proj2 (proj2 C3_income_tax_rule))) 2.25 10000).
  vm_compute. discriminate.
Defined.

(** C3 as stated fails above [sys.maxsize]: at salary 2^64 with no tax
    points the seventh tier taxes only up to 2^63 - 1, so the rule returns
    less than the engine on an open-ended seventh tier. *)
Lemma C3_counterexample_above_sys_maxsize :
  calculate (income_tax 0) 18446744073709551616
  == 4611686018427377826.6
  /\ Spec.apply Spec.income_tax_table 18446744073709551616 - 223 * 0
     == 9223372036854765731.1
  /\ ~ calculate (income_tax 0) 18446744073709551616
       == Spec.apply Spec.income_tax_table 18446744073709551616 - 223 * 0.
Proof.
  split; [|split]; vm_compute; [reflexivity | reflexivity | discriminate].
Qed.

(** * Further properties of the bracket loop *)

Section BracketShape.

Import TaxBrackets.

Lemma top_ceiling_snoc last pre b :
  top_ceiling last (pre ++ [b]) = max_taxable_income b.
Proof. unfold top_ceiling. now rewrite fold_left_app. Qed.

Lemma chain_top_le bs : forall last,
  chain last bs -> (last <= top_ceiling last bs)%Z.
Proof.
  induction bs as [|b rest IH]; intros last Hc.
  - simpl. lia.
  - destruct Hc as [Hlt Hc]. specialize (IH _ Hc).
    change (top_ceiling last (b :: rest))
      with (top_ceiling (max_taxable_income b) rest).
    lia.
Qed.

Lemma chain_app pre : forall last post,
  chain last (pre ++ post) <->
  chain last pre /\ chain (top_ceiling last pre) post.
Proof.
  induction pre as [|a pre IH]; intros last post.
  - simpl. tauto.
  - simpl. change (fold_left (fun _ b => max_taxable_income b) pre
                     (max_taxable_income a))
      with (top_ceiling (max_taxable_income a) pre).
    rewrite IH. tauto.
Qed.

(** At or below the running threshold of an ascending chain nothing is
    added. *)
Lemma loop_at_or_below bs d last g :
  chain last bs -> g <= inject_Z last -> loop bs d last g == d.
Proof.
  intros Hc Hg. destruct (Qlt_le_dec g (inject_Z last)) as [Hlt|Hge].
  - rewrite loop_below by exact Hlt. reflexivity.
  - apply loop_at_threshold; [exact Hc | lra].
Qed.

(** Tiers whose ceilings the salary has passed are taxed over their whole
    width; the loop then goes on with the remaining tiers. *)
Lemma loop_app pre : forall post d last g,
  chain last pre -> inject_Z (top_ceiling last pre) <= g ->
  loop (pre ++ post) d last g
  == d + full_tiers last pre + loop post 0 (top_ceiling last pre) g.
Proof.
  induction pre as [|a pre IH]; intros post d last g Hc Hg.
  - simpl. rewrite (loop_acc post d). lra.
  - destruct Hc as [Hlt Hc].
    change (top_ceiling last (a :: pre))
      with (top_ceiling (max_taxable_income a) pre) in *.
    pose proof (inject_Z_le _ _ (chain_top_le _ _ Hc)) as Htop.
    apply inject_Z_lt in Hlt.
    change ((a :: pre) ++ post) with (a :: (pre ++ post)).
    rewrite loop_step by (apply Qle_bool_iff; lra).
    rewrite (IH post _ (max_taxable_income a) g Hc Hg).
    rewrite (Q.min_r g (inject_Z (max_taxable_income a))) by lra.
    simpl full_tiers. ring.
Qed.

(** Tiers that start above the salary are never reached. *)
Lemma loop_ignores_tiers_above pre : forall b post d last g,
  g < inject_Z (max_taxable_income b) ->
  loop (pre ++ b :: post) d last g = loop (pre ++ [b]) d last g.
Proof.
  induction pre as [|a pre IH]; intros b post d last g Hg.
  - simpl. destruct (Qle_bool (inject_Z last) g); [|reflexivity].
    now rewrite loop_below by exact Hg.
  - simpl. destruct (Qle_bool (inject_Z last) g); [|reflexivity].
    now apply IH.
Qed.

(** Inside the tier [b] that follows the tiers [pre]. *)
Lemma loop_in_tier pre b post d last g :
  chain last (pre ++ b :: post) ->
  inject_Z (top_ceiling last pre) <= g ->
  g <= inject_Z (max_taxable_income b) ->
  loop (pre ++ b :: post) d last g
  == d + full_tiers last pre
     + (g - inject_Z (top_ceiling last pre)) * tax_rate b.
Proof.
  intros Hc Hlo Hhi. apply chain_app in Hc. destruct Hc as [Hpre [_ Hpost]].
  rewrite (loop_app pre (b :: post) d last g Hpre Hlo).
  rewrite loop_step by (apply Qle_bool_iff; exact Hlo).
  rewrite (loop_at_or_below post _ _ g Hpost Hhi).
  rewrite (Q.min_l g (inject_Z (max_taxable_income b)) Hhi). ring.
Qed.

Lemma loop_at_floor pre post d last :
  chain last (pre ++ post) ->
  loop (pre ++ post) d last (inject_Z (top_ceiling last pre))
  == d + full_tiers last pre.
Proof.
  intros Hc. apply chain_app in Hc. destruct Hc as [Hpre Hpost].
  rewrite (loop_app pre post d last _ Hpre) by apply Qle_refl.
  rewrite (loop_at_or_below post 0 _ _ Hpost) by apply Qle_refl.
  ring.
Qed.

End BracketShape.

(** X1.  The tiers after a tier whose ceiling exceeds the salary never
    contribute: cutting the table after such a tier leaves the deduction
    unchanged, on every table. *)
Theorem X1_tiers_above_salary_never_contribute :
  forall (pre : list TaxBracket) (b : TaxBracket) (post : list TaxBracket)
         (g : Q),
    g < inject_Z (max_taxable_income b) ->
    TaxBrackets.calculate (mkTaxBracketsDeductionCalculator (pre ++ b :: post)) g
    = TaxBrackets.calculate (mkTaxBracketsDeductionCalculator (pre ++ [b])) g.
Proof.
  intros pre b post g Hg. unfold TaxBrackets.calculate. simpl tax_brackets.
  now apply loop_ignores_tiers_above.
Qed.

(** X1 on the income-tax table at salary 10000: the tiers after the third
    do not matter. *)
Lemma X1_witness_income_tax_10000 :
  TaxBrackets.calculate
    (mkTaxBracketsDeductionCalculator
       ([mkTaxBracket 6450 0.1; mkTaxBracket 9240 0.14]
        ++ mkTaxBracket 14840 0.2
           :: [mkTaxBracket 20620 0.31; mkTaxBracket 42910 0.35;
               mkTaxBracket 55270 0.47; mkTaxBracket sys_maxsize 0.5])) 10000
  = TaxBrackets.calculate
      (mkTaxBracketsDeductionCalculator
         ([mkTaxBracket 6450 0.1; mkTaxBracket 9240 0.14]
          ++ [mkTaxBracket 14840 0.2])) 10000.
Proof.
  apply X1_tiers_above_salary_never_contribute.
  vm_compute. reflexivity.
Defined.

(** X2.  On a table whose ceilings ascend strictly from above 0, the
    deduction is linear inside each tier: between the previous ceiling (0
    for the first tier) and the tier's own ceiling it is the deduction at
    the previous ceiling plus the tier's rate times the excess.  So the
    deduction is continuous at every ceiling. *)
Theorem X2_linear_inside_each_tier :
  forall (pre : list TaxBracket) (b : TaxBracket) (post : list TaxBracket)
         (g : Q),
    chain 0 (pre ++ b :: post) ->
    inject_Z (top_ceiling 0 pre) <= g ->
    g <= inject_Z (max_taxable_income b) ->
    TaxBrackets.calculate (mkTaxBracketsDeductionCalculator (pre ++ b :: post)) g
    == TaxBrackets.calculate
         (mkTaxBracketsDeductionCalculator (pre ++ b :: post))
         (inject_Z (top_ceiling 0 pre))
       + (g - inject_Z (top_ceiling 0 pre)) * tax_rate b.
Proof.
  intros pre b post g Hc Hlo Hhi.
  unfold TaxBrackets.calculate. simpl tax_brackets.
  rewrite (loop_in_tier pre b post 0 0%Z g Hc Hlo Hhi).
  rewrite (loop_at_floor pre (b :: post) 0 0%Z Hc). ring.
Qed.

(** X2 on the income-tax table, in its third tier, at salary 10000. *)
Lemma X2_witness_income_tax_10000 :
  TaxBrackets.calculate IncomeTax_default 10000
  == TaxBrackets.calculate IncomeTax_default 9240 + (10000 - 9240) * 0.2.
Proof.
  apply (X2_linear_inside_each_tier
           [mkTaxBracket 6450 0.1; mkTaxBracket 9240 0.14]
           (mkTaxBracket 14840 0.2)
           [mkTaxBracket 20620 0.31; mkTaxBracket 42910 0.35;
            mkTaxBracket 55270 0.47; mkTaxBracket sys_maxsize 0.5]
           10000).
  - simpl. repeat split; reflexivity.
  - vm_compute. discriminate.
  - vm_compute. discriminate.
Defined.

(** X3.  On a table whose ceilings ascend strictly from above 0, every
    salary at or above the last ceiling gets the same deduction, the one
    at the last ceiling: each tier taxed over its whole width. *)
Theorem X3_constant_above_last_ceiling :
  forall (table : list TaxBracket) (g : Q),
    chain 0 table ->
    inject_Z (top_ceiling 0 table) <= g ->
    TaxBrackets.calculate (mkTaxBracketsDeductionCalculator table) g
    == TaxBrackets.calculate (mkTaxBracketsDeductionCalculator table)
         (inject_Z (top_ceiling 0 table))
    /\ TaxBrackets.calculate (mkTaxBracketsDeductionCalculator table) g
       == full_tiers 0 table.
Proof.
  intros table g Hc Hg.
  unfold TaxBrackets.calculate. simpl tax_brackets.
  pose proof (loop_app table [] 0 0%Z g Hc Hg) as E1.
  pose proof (loop_app table [] 0 0%Z _ Hc (Qle_refl _)) as E2.
  rewrite app_nil_r in E1, E2. simpl TaxBrackets.loop in E1, E2.
  split.
  - rewrite E1, E2. reflexivity.
  - rewrite E1. ring.
Qed.

(** X3 on the Health Insurance table at salary 60000. *)
Lemma X3_witness_health_insurance_60000 :
  TaxBrackets.calculate
    (mkTaxBracketsDeductionCalculator (tax_brackets HealthInsurance_default))
    60000
  == TaxBrackets.calculate
       (mkTaxBracketsDeductionCalculator (tax_brackets HealthInsurance_default))
       (inject_Z (top_ceiling 0 (tax_brackets HealthInsurance_default)))
  /\ TaxBrackets.calculate
       (mkTaxBracketsDeductionCalculator (tax_brackets HealthInsurance_default))
       60000
     == full_tiers 0 (tax_brackets HealthInsurance_default).
Proof.
  apply (X3_constant_above_last_ceiling
           (tax_brackets HealthInsurance_default) 60000).
  - simpl. repeat split; reflexivity.
  - vm_compute. discriminate.
Defined.

(** * Python's numbers: what the exact functions leave out *)

Section PyArithmetic.

Lemma to_float_value x q : Py.to_float x = inr q -> q = Py.value x.
Proof.
  destruct x as [z|f]; simpl.
  - destruct (Z.abs z <? Py.float_limit)%Z; intros H; now inversion H.
  - intros H. now inversion H.
Qed.

Lemma to_float_error x e : Py.to_float x = inl e -> e = Py.OverflowError.
Proof.
  destruct x as [z|f]; simpl.
  - destruct (Z.abs z <? Py.float_limit)%Z; intros H; now inversion H.
  - discriminate.
Qed.



Lemma arith_value iop fop x y z :
  (forall a b, inject_Z (iop a b) == fop (inject_Z a) (inject_Z b)) ->
  Py.arith iop fop x y = inr z ->
  Py.value z == fop (Py.value x) (Py.value y).
Proof.
  intros Hop H. unfold Py.arith in H.
  destruct x as [a|a]; destruct y as [b|b].
  - inversion H; subst. apply Hop.
  - destruct (Py.to_float (Py.Int a)) as [e|a'] eqn:Ea; [discriminate|].
    apply to_float_value in Ea. simpl in H. inversion H; subst. reflexivity.
  - destruct (Py.to_float (Py.Int b)) as [e|b'] eqn:Eb;
      simpl in H; [discriminate|].
    apply to_float_value in Eb. inversion H; subst. reflexivity.
  - simpl in H. inversion H; subst. reflexivity.
Qed.

Lemma arith_error iop fop x y e :
  Py.arith iop fop x y = inl e -> e = Py.OverflowError.
Proof.
  unfold Py.arith. intros H.
  destruct x as [a|a]; destruct y as [b|b]; try discriminate.
  - destruct (Py.to_float (Py.Int a)) as [e'|a'] eqn:Ea.
    + apply to_float_error in Ea. inversion H; subst. reflexivity.
    + simpl in H. discriminate.
  - destruct (Py.to_float (Py.Int b)) as [e'|b'] eqn:Eb; simpl in H.
    + apply to_float_error in Eb. inversion H; subst. reflexivity.
    + discriminate.
Qed.

Lemma add_value x y z :
  Py.add x y = inr z -> Py.value z == Py.value x + Py.value y.
Proof. apply arith_value. intros a b. now rewrite inject_Z_plus. Qed.

Lemma sub_value x y z :
  Py.sub x y = inr z -> Py.value z == Py.value x - Py.value y.
Proof.
  apply arith_value. intros a b. unfold Z.sub, Qminus.
  rewrite inject_Z_plus, inject_Z_opp. reflexivity.
Qed.

Lemma mul_value x y z :
  Py.mul x y = inr z -> Py.value z == Py.value x * Py.value y.
Proof. apply arith_value. intros a b. now rewrite inject_Z_mult. Qed.

Lemma min_value x y :
  Py.value (Py.min x y) == Qmin (Py.value x) (Py.value y).
Proof.
  unfold Py.min. destruct (Qle_bool (Py.value x) (Py.value y)) eqn:E.
  - apply Qle_bool_iff in E. rewrite (Q.min_l _ _ E). reflexivity.
  - assert (H : Py.value y <= Py.value x).
    { destruct (Qlt_le_dec (Py.value x) (Py.value y)) as [L|L]; [|exact L].
      apply Qlt_le_weak, Qle_bool_iff in L. congruence. }
    rewrite (Q.min_r _ _ H). reflexivity.
Qed.








End PyArithmetic.

Section PyBracketLoop.

Lemma loop_start_proper bs d1 d2 last g :
  d1 == d2 -> TaxBrackets.loop bs d1 last g == TaxBrackets.loop bs d2 last g.
Proof.
  intros H. rewrite (loop_acc bs d1), (loop_acc bs d2), H. reflexivity.
Qed.

(** Where the loop on Python's numbers returns, it returns the number the
    exact loop computes. *)
Lemma py_loop_value bs : forall d last g d',
  Py.loop bs d last g = inr d' ->
  Py.value d' == TaxBrackets.loop bs (Py.value d) last (Py.value g).
Proof.
  induction bs as [|b rest IH]; intros d last g d' H.
  - simpl in H. inversion H; subst. reflexivity.
  - cbn [Py.loop] in H. cbn [TaxBrackets.loop].
    destruct (Qle_bool (inject_Z last) (Py.value g)).
    + destruct (Py.sub (Py.min g (Py.Int (max_taxable_income b)))
                  (Py.Int last)) as [e|income] eqn:Es; [discriminate|].
      destruct (Py.mul income (Py.Float (tax_rate b))) as [e|tier] eqn:Em;
        [discriminate|].
      destruct (Py.add d tier) as [e|d1] eqn:Ea; [discriminate|].
      rewrite (IH _ _ _ _ H). apply loop_start_proper.
      rewrite (add_value _ _ _ Ea), (mul_value _ _ _ Em),
        (sub_value _ _ _ Es), min_value.
      reflexivity.
    + inversion H; subst. reflexivity.
Qed.

(** The loop raises nothing but [OverflowError]. *)
Lemma py_loop_error bs : forall d last g e,
  Py.loop bs d last g = inl e -> e = Py.OverflowError.
Proof.
  induction bs as [|b rest IH]; intros d last g e H.
  - discriminate.
  - cbn [Py.loop] in H.
    destruct (Qle_bool (inject_Z last) (Py.value g)); [|discriminate].
    destruct (Py.sub (Py.min g (Py.Int (max_taxable_income b)))
                (Py.Int last)) as [e1|income] eqn:Es.
    { inversion H; subst. exact (arith_error _ _ _ _ _ Es). }
    destruct (Py.mul income (Py.Float (tax_rate b))) as [e2|tier] eqn:Em.
    { inversion H; subst. exact (arith_error _ _ _ _ _ Em). }
    destruct (Py.add d tier) as [e3|d1] eqn:Ea.
    { inversion H; subst. exact (arith_error _ _ _ _ _ Ea). }
    exact (IH _ _ _ _ H).
Qed.




End PyBracketLoop.

Section PyRules.

(** Where a rule returns, it returns the amount of the exact rule. *)
Lemma py_calculate_value rule g v :
  Py.calculate rule g = inr v ->
  Py.value v == calculate rule (Py.value g).
Proof.
  destruct rule as [tp c|c|c|]; cbn [Py.calculate calculate]; intros H.
  - destruct (Py.bracket_calculate c g) as [e|tax] eqn:Eb; [discriminate|].
    destruct (Py.mul (Py.Int 223) (Py.Float tp)) as [e|credit] eqn:Em;
      [discriminate|].
    rewrite (sub_value _ _ _ H), (mul_value _ _ _ Em).
    unfold Py.bracket_calculate in Eb. rewrite (py_loop_value _ _ _ _ _ Eb).
    reflexivity.
  - unfold Py.bracket_calculate in H. rewrite (py_loop_value _ _ _ _ _ H).
    reflexivity.
  - unfold Py.bracket_calculate in H. rewrite (py_loop_value _ _ _ _ _ H).
    reflexivity.
  - rewrite (mul_value _ _ _ H). reflexivity.
Qed.

Lemma py_calculate_error rule g e :
  Py.calculate rule g = inl e -> e = Py.OverflowError.
Proof.
  destruct rule as [tp c|c|c|]; cbn [Py.calculate]; intros H.
  - destruct (Py.bracket_calculate c g) as [e1|tax] eqn:Eb.
    { inversion H; subst. exact (py_loop_error _ _ _ _ _ Eb). }
    destruct (Py.mul (Py.Int 223) (Py.Float tp)) as [e2|credit] eqn:Em.
    { inversion H; subst. exact (arith_error _ _ _ _ _ Em). }
    exact (arith_error _ _ _ _ _ H).
  - exact (py_loop_error _ _ _ _ _ H).
  - exact (py_loop_error _ _ _ _ _ H).
  - exact (arith_error _ _ _ _ _ H).
Qed.



End PyRules.

Section PyPipeline.

Lemma fold_left_Qplus_proper l : forall a b,
  a == b -> fold_left Qplus l a == fold_left Qplus l b.
Proof.
  induction l as [|x l IH]; intros a b H; simpl.
  - exact H.
  - apply IH. rewrite H. reflexivity.
Qed.

(** One pass of the pipeline's loop: either every rule returned, the sum
    was formed in pipeline order and one record per rule was appended, or
    some rule failed with [OverflowError] and only the rules before it left
    a record. *)
Lemma py_net_loop_run rules : forall g d log,
  match Py.net_loop rules g d log with
  | (inr d', log') =>
      Py.value d'
      == fold_left Qplus (map (fun rule => calculate rule (Py.value g)) rules)
           (Py.value d)
      /\ exists trace,
           log' = log ++ trace /\ records_of (Py.value g) trace rules
  | (inl e, log') =>
      e = Py.OverflowError
      /\ exists trace done rest,
           rules = done ++ rest /\ rest <> []
           /\ log' = log ++ trace /\ records_of (Py.value g) trace done
  end.
Proof.
  induction rules as [|rule rest IH]; intros g d log.
  - simpl. split; [reflexivity|].
    exists []. split; [now rewrite app_nil_r | constructor].
  - cbn [Py.net_loop].
    destruct (Py.calculate rule g) as [e|v] eqn:Ec.
    { split; [exact (py_calculate_error _ _ _ Ec)|].
      exists [], [], (rule :: rest).
      repeat split; [discriminate | now rewrite app_nil_r | constructor]. }
    destruct (Py.add d v) as [e|d1] eqn:Ea.
    { split; [exact (arith_error _ _ _ _ _ Ea)|].
      exists [], [], (rule :: rest).
      repeat split; [discriminate | now rewrite app_nil_r | constructor]. }
    destruct (Py.to_float v) as [e|amount] eqn:Ef.
    { split; [exact (to_float_error _ _ Ef)|].
      exists [], [], (rule :: rest).
      repeat split; [discriminate | now rewrite app_nil_r | constructor]. }
    apply to_float_value in Ef. subst amount.
    pose proof (py_calculate_value _ _ _ Ec) as Hv.
    specialize (IH g d1 (log ++ [(repr rule, Py.value v)])).
    destruct (Py.net_loop rest g d1 (log ++ [(repr rule, Py.value v)]))
      as [[e|d'] log'].
    + destruct IH as [He [trace [done [rest' [Hr [Hne [Hl Hrec]]]]]]].
      split; [exact He|].
      exists ((repr rule, Py.value v) :: trace), (rule :: done), rest'.
      repeat split.
      * simpl. now rewrite Hr.
      * exact Hne.
      * rewrite Hl, <- app_assoc. reflexivity.
      * constructor; [split; [reflexivity | exact Hv] | exact Hrec].
    + destruct IH as [Hd [trace [Hl Hrec]]]. split.
      * rewrite Hd. cbn [map fold_left]. apply fold_left_Qplus_proper.
        rewrite (add_value _ _ _ Ea), Hv. reflexivity.
      * exists ((repr rule, Py.value v) :: trace). split.
        -- rewrite Hl, <- app_assoc. reflexivity.
        -- constructor; [split; [reflexivity | exact Hv] | exact Hrec].
Qed.






End PyPipeline.

(** * The pipeline, with Python's errors *)

Lemma py_net_calculate_run rules g log :
  match Py.net_calculate (mkNetSalaryCalculator rules) g log with
  | (inr net, log') =>
      Py.value net
      == Py.value g
         - fold_left Qplus
             (map (fun rule => calculate rule (Py.value g)) rules) 0
      /\ exists trace,
           log' = log ++ trace /\ records_of (Py.value g) trace rules
  | (inl e, log') =>
      e = Py.OverflowError
      /\ exists trace done rest,
           rules = done ++ rest
           /\ log' = log ++ trace /\ records_of (Py.value g) trace done
  end.
Proof.
  unfold Py.net_calculate. simpl deduction_calculators.
  pose proof (py_net_loop_run rules g (Py.Int 0) log) as H.
  destruct (Py.net_loop rules g (Py.Int 0) log) as [[e|d] log'].
  - destruct H as [He [trace [done [rest [Hr [_ [Hl Hrec]]]]]]].
    split; [exact He|]. exists trace, done, rest. now repeat split.
  - destruct H as [Hd [trace [Hl Hrec]]].
    destruct (Py.sub g d) as [e|net] eqn:Es.
    + split; [exact (arith_error _ _ _ _ _ Es)|].
      exists trace, rules, []. rewrite app_nil_r. now repeat split.
    + split.
      * rewrite (sub_value _ _ _ Es), Hd. reflexivity.
      * exists trace. now split.
Qed.




(** * Construction and validation *)

(** C2, as the code has it.  Constructing a bracket calculator performs no
    validation: the table is stored as given.  Applying it never fails with
    [ConfigurationError], whatever the table; where it returns, it returns
    the number the loop computes, also on a table whose ceilings do not
    ascend or whose rates leave [0,1].  On a well-formed table the
    validating constructor of the design document builds the same
    calculator, so its error branch is never taken.  Applying can still
    fail with [OverflowError], even on a well-formed table. *)
Theorem C2_no_validation_and_no_configuration_error :
  (forall table : list TaxBracket,
      construct table = inr (mkTaxBracketsDeductionCalculator table))
  /\ (forall (table : list TaxBracket) (g : Py.Num) (e : Spec.Error),
        Py.construct_and_calculate table g <> inl (Py.Configuration e))
  /\ (forall (table : list TaxBracket) (g v : Py.Num),
        Py.construct_and_calculate table g = inr v ->
        Py.value v == TaxBrackets.loop table 0 0%Z (Py.value g))
  /\ (forall table : list TaxBracket,
        Spec.well_formed table = true ->
        Spec.construct table = construct table
        /\ Spec.construct table <> inl Spec.ConfigurationError)
  /\ (Spec.well_formed [mkTaxBracket (10 ^ 400) 0.5] = true
      /\ Py.construct_and_calculate [mkTaxBracket (10 ^ 400) 0.5]
           (Py.Int (10 ^ 400))
         = inl Py.OverflowError).
Proof.
  split; [|split; [|split; [|split]]].
  - intros table. reflexivity.
  - intros table g e H. unfold Py.construct_and_calculate, construct in H.
    apply py_loop_error in H. discriminate.
  - intros table g v H. unfold Py.construct_and_calculate, construct in H.
    exact (py_loop_value _ _ _ _ _ H).
  - intros table Hwf. unfold construct, Spec.construct. rewrite Hwf.
    split; [reflexivity | discriminate].
  - split; vm_compute; reflexivity.
Qed.

(** The amended C2 on the National Insurance table. *)
Lemma C2_witness_national_insurance :
  Spec.construct (tax_brackets NationalInsurance_default)
  = construct (tax_brackets NationalInsurance_default)
  /\ Spec.construct (tax_brackets NationalInsurance_default)
     <> inl Spec.ConfigurationError.
Proof.
  apply (proj1 (proj2 (proj2 (proj2
           C2_no_validation_and_no_configuration_error)))
           (tax_brackets NationalInsurance_default)).
  vm_compute. reflexivity.
Defined.

(** C2 as stated fails on the table with ceilings 10 and 5 and rates 0.5
    and 2, which is neither ascending nor within the rate range: the
    document's constructor rejects it, the code's constructor accepts it,
    and at salary 12 the loop returns 10 * 0.5 + (5 - 10) * 2 = -5. *)
Lemma C2_counterexample_malformed_table_accepted :
  Spec.strictly_ascending [mkTaxBracket 10 0.5; mkTaxBracket 5 2] = false
  /\ forallb Spec.rate_in_range [mkTaxBracket 10 0.5; mkTaxBracket 5 2] = false
  /\ Spec.construct_and_apply [mkTaxBracket 10 0.5; mkTaxBracket 5 2] 12
     = inl Spec.ConfigurationError
  /\ construct [mkTaxBracket 10 0.5; mkTaxBracket 5 2]
     = inr (mkTaxBracketsDeductionCalculator
              [mkTaxBracket 10 0.5; mkTaxBracket 5 2])
  /\ (exists amount : Q,
        Py.construct_and_calculate [mkTaxBracket 10 0.5; mkTaxBracket 5 2]
          (Py.Int 12)
        = inr (Py.Float amount)
        /\ amount == -5).
Proof.
  repeat split; try reflexivity.
  eexists. split; [vm_compute; reflexivity | reflexivity].
Qed.

(** * Program entry *)



(** * The exact pipeline is what Python's pipeline returns *)

Lemma fold_left_Qplus_sum l : forall a,
  fold_left Qplus l a == a + Qsum l.
Proof.
  induction l as [|x l IH]; intros a; unfold Qsum in *; cbn [fold_left fold_right].
  - ring.
  - rewrite IH. ring.
Qed.

(** Whenever the pipeline on Python's numbers returns, its net salary is
    the one the exact pipeline computes for the same salary. *)
Lemma py_net_calculate_exact rules g log log0 :
  forall net log',
    Py.net_calculate (mkNetSalaryCalculator rules) g log = (inr net, log') ->
    Py.value net
    == fst (NetSalary.calculate (mkNetSalaryCalculator rules) (Py.value g) log0).
Proof.
  intros net log' E.
  pose proof (py_net_calculate_run rules g log) as R. rewrite E in R.
  destruct R as [Hnet _].
  destruct (net_calculate_run rules (Py.value g) log0) as [Hq _].
  rewrite Hnet, Hq, fold_left_Qplus_sum. unfold amounts. ring.
Qed.
